(** * LightBnB data-access layer: [server/database.js]

    A shallow embedding of the query functions of the LightBnB web
    application and the properties of the SQL text and of the bound
    arguments they hand to the [pg] connection pool.

    The embedding follows the JavaScript source statement by statement:
    arrays are lists extended with [push], template literals are string
    concatenations, objects are property lists in their own key order,
    promises are their settled outcome and [console.log] appends to a
    console carried in an explicit world state. *)

From Stdlib Require Import String Ascii List ZArith Lia Bool Arith.
From Stdlib Require Import Decimal DecimalFacts DecimalString DecimalNat.
From Stdlib Require DecimalPos.
From Stdlib Require Import Permutation.
Import ListNotations.

Local Open Scope list_scope.
Local Open Scope string_scope.

(** ** JavaScript values and the runtime operations the source relies on *)

Module JS.

(** The primitive values a caller can put into an options object or a
    property record.  Numbers are the integers (the safe-integer range
    of a double, on which [*] is exact) and [NaN]; fractional numbers
    are outside the embedding. *)
Inductive value : Type :=
| VUndefined
| VNull
| VBool (b : bool)
| VNum (z : Z)
| VNaN
| VStr (s : string).

(** An object: its own enumerable string-keyed properties, in the order
    [Object.keys] enumerates them. *)
Definition object : Type := list (string * value).

(** The line terminator inside the source's template literals. *)
Definition nl : string := String (ascii_of_nat 10) EmptyString.

(** [ToBoolean]: what an [if (x)] tests. *)
Definition truthy (v : value) : bool :=
  match v with
  | VUndefined => false
  | VNull => false
  | VBool b => b
  | VNum z => negb (Z.eqb z 0)
  | VNaN => false
  | VStr s => negb (String.eqb s "")
  end.

(** Decimal rendering of an array length, as a template literal does. *)
Definition string_of_nat (n : nat) : string :=
  NilEmpty.string_of_uint (Nat.to_uint n).

Definition string_of_Z (z : Z) : string :=
  NilEmpty.string_of_int (Z.to_int z).

(** [ToString], as applied by [${...}] inside a template literal. *)
Definition to_string (v : value) : string :=
  match v with
  | VUndefined => "undefined"
  | VNull => "null"
  | VBool true => "true"
  | VBool false => "false"
  | VNum z => string_of_Z z
  | VNaN => "NaN"
  | VStr s => s
  end.

Definition is_white_space (c : ascii) : bool :=
  let n := nat_of_ascii c in
  existsb (Nat.eqb n) [32; 9; 10; 11; 12; 13].

Fixpoint trim_start (s : string) : string :=
  match s with
  | String c s' => if is_white_space c then trim_start s' else s
  | EmptyString => EmptyString
  end.

Fixpoint trim_end (s : string) : string :=
  match s with
  | String c s' =>
      let t := trim_end s' in
      if is_white_space c && String.eqb t "" then "" else String c t
  | EmptyString => EmptyString
  end.

Definition unsigned_decimal (s : string) : value :=
  match s with
  | EmptyString => VNaN
  | _ => match NilEmpty.uint_of_string s with
         | Some d => VNum (Z.of_uint d)
         | None => VNaN
         end
  end.

Definition negate (v : value) : value :=
  match v with
  | VNum z => VNum (- z)
  | _ => v
  end.

(** [StringToNumber] on the signed decimal integer literals (with
    surrounding white space; the empty string is [0]); a text that is no
    number is [NaN].  The other numeric literal forms of the language
    (fraction, exponent, radix prefix, [Infinity]) denote numbers that
    [value] does not represent and are not given their value here; the
    statements below about a product are about numbers, not strings. *)
Definition string_to_number (s : string) : value :=
  match trim_end (trim_start s) with
  | EmptyString => VNum 0
  | String "+" d => unsigned_decimal d
  | String "-" d => negate (unsigned_decimal d)
  | d => unsigned_decimal d
  end.

(** [ToNumber]. *)
Definition to_number (v : value) : value :=
  match v with
  | VUndefined => VNaN
  | VNull => VNum 0
  | VBool true => VNum 1
  | VBool false => VNum 0
  | VNum z => VNum z
  | VNaN => VNaN
  | VStr s => string_to_number s
  end.

(** The [*] operator. *)
Definition mul (a b : value) : value :=
  match to_number a, to_number b with
  | VNum x, VNum y => VNum (x * y)
  | _, _ => VNaN
  end.

(** Property read [o[k]] / [o.k]: [undefined] for a missing key. *)
Fixpoint get (o : object) (k : string) : value :=
  match o with
  | [] => VUndefined
  | (k', v) :: o' => if String.eqb k' k then v else get o' k
  end.

(** [delete o[k]]: the same object without the property. *)
Fixpoint remove (k : string) (o : object) : object :=
  match o with
  | [] => []
  | (k', v) :: o' =>
      if String.eqb k' k then remove k o' else (k', v) :: remove k o'
  end.

(** [Object.keys]. *)
Definition keys (o : object) : list string := map fst o.

(** [Array.prototype.push], returning the extended array. *)
Definition push {A : Type} (arr : list A) (x : A) : list A :=
  (arr ++ [x])%list.

(** [Array.prototype.join]. *)
Fixpoint join (sep : string) (arr : list string) : string :=
  match arr with
  | [] => ""
  | [x] => x
  | x :: rest => x ++ sep ++ join sep rest
  end.

(** [s.slice(0, -k)]: all of [s] but its last [k] characters. *)
Definition slice_0_neg (k : nat) (s : string) : string :=
  substring 0 (String.length s - k) s.

(** A default parameter value applies when the argument is [undefined]. *)
Definition default_to (d v : value) : value :=
  match v with
  | VUndefined => d
  | _ => v
  end.

End JS.

Import JS.

(** ** The [pg] pool, promises and the console *)

Module Pg.

(** An [Error] object, as far as the source looks at it. *)
Record js_error : Type := { name : string; message : string }.

(** A promise, identified with the way it settles. *)
Inductive promise (A : Type) : Type :=
| Fulfilled (a : A)
| Rejected (e : js_error).
Arguments Fulfilled {A} a.
Arguments Rejected {A} e.

(** The [Result] object a successful query resolves with. *)
Record pg_result : Type := { rows : list object }.

(** What the functions of the module resolve with. *)
Inductive returned : Type :=
| RUndefined
| RNull
| RRow (r : object)
| RRows (rs : list object).

(** One query handed to the pool: its text and its bound arguments. *)
Definition query : Type := (string * list value)%type.

(** The database behind the pool: how it answers a query. *)
Definition database : Type := string -> list value -> promise pg_result.

(** What a call can change outside itself: the lines written to the
    console and the queries sent to the pool. *)
Record world : Type := { console : list string; sent : list query }.

Definition M (A : Type) : Type := world -> A * world.

Definition ret {A : Type} (a : A) : M A := fun w => (a, w).

Definition bind {A B : Type} (m : M A) (k : A -> M B) : M B :=
  fun w => let (a, w') := m w in k a w'.

Definition run {A : Type} (m : M A) : A * world :=
  m {| console := []; sent := [] |}.

(** [pool.query(text, params)]. *)
Definition pool_query (db : database) (text : string) (params : list value)
  : M (promise pg_result) :=
  fun w => (db text params,
            {| console := console w; sent := push (sent w) (text, params) |}).

(** [console.log(line)]; the call evaluates to [undefined]. *)
Definition console_log (line : string) : M returned :=
  fun w => (RUndefined,
            {| console := push (console w) line; sent := sent w |}).

(** [p.then(f)] for a handler that returns normally. *)
Definition and_then {A B : Type} (p : promise A) (f : A -> B) : promise B :=
  match p with
  | Fulfilled a => Fulfilled (f a)
  | Rejected e => Rejected e
  end.

(** [p.catch(h)]: a rejection is handed to [h] and the promise resolves
    with what [h] returns. *)
Definition catch {A : Type} (p : promise A) (h : js_error -> M A)
  : M (promise A) :=
  match p with
  | Fulfilled a => ret (Fulfilled a)
  | Rejected e => bind (h e) (fun r => ret (Fulfilled r))
  end.

(** [rows[0]]. *)
Definition first_row (rs : list object) : returned :=
  match rs with
  | r :: _ => RRow r
  | [] => RUndefined
  end.

(** [!result] for a [Result] object: objects are truthy. *)
Definition not_result (_ : pg_result) : bool := false.

(** A database that answers every query with the rows [rs]. *)
Definition answering (rs : list object) : database :=
  fun _ _ => Fulfilled {| rows := rs |}.

(** A database that fails every query with the error [e]. *)
Definition failing (e : js_error) : database :=
  fun _ _ => Rejected e.

End Pg.

Import Pg.

Notation "x <- c ;; k" := (bind c (fun x => k))
  (at level 61, c at next level, right associativity).


(** ** The functions of [server/database.js] *)

(** *** Users *)

Definition getUserWithEmail (db : database) (email : value) : M (promise returned) :=
  let queryString :=
    "SELECT * " ++ nl ++
    "  FROM users " ++ nl ++
    "  WHERE email = $1" in
  p <- pool_query db queryString [email] ;;
  catch
    (and_then p (fun result =>
       if not_result result then RNull else first_row (rows result)))
    (fun err => console_log (message err)).

Definition getUserWithId (db : database) (id : value) : M (promise returned) :=
  let queryString :=
    "SELECT * " ++ nl ++
    "  FROM users " ++ nl ++
    "  WHERE id = $1" in
  p <- pool_query db queryString [id] ;;
  catch
    (and_then p (fun result =>
       if not_result result then RNull else first_row (rows result)))
    (fun err => console_log (message err)).

Definition addUser (db : database) (user : object) : M (promise returned) :=
  let queryString :=
    "INSERT INTO users (name, email, password)" ++ nl ++
    "  VALUES ($1, $2, $3)" ++ nl ++
    "  RETURNING *;" in
  p <- pool_query db queryString
         [get user "name"; get user "email"; get user "password"] ;;
  catch
    (and_then p (fun result => RRows (rows result)))
    (fun err => console_log (message err)).

(** *** Reservations *)

Definition getAllReservations (db : database) (guest_id limit : value)
  : M (promise returned) :=
  let limit := default_to (VNum 10) limit in
  let queryString :=
    "SELECT reservations.*, properties.*," ++ nl ++
    "  AVG(property_reviews.rating) AS average_rating" ++ nl ++
    "  FROM reservations" ++ nl ++
    "  JOIN properties ON properties.id = property_id" ++ nl ++
    "  JOIN property_reviews ON reservations.id = reservation_id" ++ nl ++
    "  WHERE reservations.guest_id = $1" ++ nl ++
    "  GROUP BY properties.id, reservations.id" ++ nl ++
    "  ORDER BY reservations.start_date" ++ nl ++
    "  LIMIT $2;" in
  p <- pool_query db queryString [guest_id; limit] ;;
  catch
    (and_then p (fun result => RRows (rows result)))
    (fun err => console_log (message err)).

(** *** Properties *)

(** The statements of [getAllProperties] before the call of the pool:
    the text and the parameters that call receives. *)
Definition getAllProperties_query (options : object) (limit : value) : query :=
  let limit := default_to (VNum 10) limit in
  (* Declare array to hold parameters passed into query *)
  let queryParams : list value := [] in
  (* Beginning of query that will not change *)
  let queryString :=
    "SELECT properties.*, AVG(rating) AS average_rating" ++ nl ++
    "  FROM properties" ++ nl ++
    "  LEFT JOIN property_reviews ON properties.id = property_id " in
  (* Declare an array to hold pieces of WHERE query *)
  let whereQuery : list string := [] in
  (* OPTIONS *)
  let '(queryParams, whereQuery) :=
    if truthy (get options "city") then
      let queryParams :=
        push queryParams (VStr ("%" ++ to_string (get options "city") ++ "%")) in
      (queryParams,
       push whereQuery
         ("city LIKE $" ++ string_of_nat (List.length queryParams) ++ " "))
    else (queryParams, whereQuery) in
  let '(queryParams, whereQuery) :=
    if truthy (get options "owner_id") then
      let queryParams := push queryParams (get options "owner_id") in
      (queryParams,
       push whereQuery
         ("owner_id = $" ++ string_of_nat (List.length queryParams) ++ " "))
    else (queryParams, whereQuery) in
  let '(queryParams, whereQuery) :=
    if truthy (get options "minimum_price_per_night") then
      (* Multiply value by 100 to convert dollars to cents *)
      let queryParams :=
        push queryParams (mul (get options "minimum_price_per_night") (VNum 100)) in
      (queryParams,
       push whereQuery
         ("(cost_per_night) >= $" ++ string_of_nat (List.length queryParams) ++ " "))
    else (queryParams, whereQuery) in
  let '(queryParams, whereQuery) :=
    if truthy (get options "maximum_price_per_night") then
      (* Multiply value by 100 to convert dollars to cents *)
      let queryParams :=
        push queryParams (mul (get options "maximum_price_per_night") (VNum 100)) in
      (queryParams,
       push whereQuery
         ("(cost_per_night) <= $" ++ string_of_nat (List.length queryParams) ++ " "))
    else (queryParams, whereQuery) in
  (* Add WHERE and its queries to the main query if it exists *)
  let queryString :=
    if Nat.ltb 0 (List.length whereQuery)
    then queryString ++ "WHERE " ++ join "AND " whereQuery
    else queryString in
  (* Handle GROUP BY after potential WHERE query *)
  let queryString := queryString ++ "GROUP BY properties.id " in
  (* Handle HAVING scenario if dealing with aggregate query AVG *)
  let '(queryParams, queryString) :=
    if truthy (get options "minimum_rating") then
      let queryParams := push queryParams (get options "minimum_rating") in
      (queryParams,
       queryString ++
         "HAVING AVG(rating) > $" ++ string_of_nat (List.length queryParams) ++ " ")
    else (queryParams, queryString) in
  (* Push limit to parameters passed in *)
  let queryParams := push queryParams limit in
  let queryString :=
    queryString ++
      "ORDER BY cost_per_night" ++ nl ++
      "  LIMIT $" ++ string_of_nat (List.length queryParams) ++ ";" in
  (queryString, queryParams).

Definition getAllProperties (db : database) (options : object) (limit : value)
  : M (promise returned) :=
  let '(queryString, queryParams) := getAllProperties_query options limit in
  p <- pool_query db queryString queryParams ;;
  catch
    (and_then p (fun res => RRows (rows res)))
    (fun err => console_log (message err)).

(** The [for (let key of keys)] loop of [addProperty], threading the two
    variables it assigns. *)
Fixpoint addProperty_loop (property : object) (keys : list string)
    (queryParams : list value) (valueIndex : string)
  : list value * string :=
  match keys with
  | [] => (queryParams, valueIndex)
  | key :: keys' =>
      let queryParams := push queryParams (get property key) in
      let valueIndex :=
        valueIndex ++ "$" ++ string_of_nat (List.length queryParams) ++ ", " in
      addProperty_loop property keys' queryParams valueIndex
  end.

(** The statements of [addProperty] before the call of the pool. *)
Definition addProperty_query (property : object) : query :=
  (* Collection of keys in property object *)
  let keys := JS.keys property in
  (* Use keys to populate query string with appropriate names *)
  let queryString :=
    "INSERT INTO properties (" ++ join ", " keys ++ ") " ++ nl ++
    "  VALUES (" in
  (* Declare array to hold parameters passed into query *)
  let queryParams : list value := [] in
  (* Initialize string to hold parameter substitution references *)
  let valueIndex := "" in
  let '(queryParams, valueIndex) :=
    addProperty_loop property keys queryParams valueIndex in
  (* Handle extra comma at the final value and return added property *)
  let queryString :=
    queryString ++ slice_0_neg 2 valueIndex ++ ")" ++ nl ++
    "  RETURNING *;" in
  (queryString, queryParams).

Definition addProperty (db : database) (property : object) : M (promise returned) :=
  let '(queryString, queryParams) := addProperty_query property in
  p <- pool_query db queryString queryParams ;;
  catch
    (and_then p (fun res => RRows (rows res)))
    (fun err => console_log (message err)).

(** ** The generated SQL, as the database reads it *)

Module Sql.

(** Where the scan of a text for positional placeholders stands: outside
    a placeholder, or after a [$] with the digits read so far (the most
    recent one first). *)
Inductive scan_state : Type :=
| Outside
| Marker (digits : uint).

(** The placeholder that ends when the scan leaves a state: a [$] with at
    least one digit behind it. *)
Definition flush (st : scan_state) : list nat :=
  match st with
  | Outside => []
  | Marker Nil => []
  | Marker d => [Nat.of_uint (Decimal.rev d)]
  end.

Fixpoint scan (st : scan_state) (s : string) : list nat :=
  match s with
  | EmptyString => flush st
  | String c s' =>
      if Ascii.eqb c "$" then (flush st ++ scan (Marker Nil) s')%list
      else
        match st with
        | Outside => scan Outside s'
        | Marker d =>
            match uint_of_char c (Some d) with
            | Some d' => scan (Marker d') s'
            | None => (flush st ++ scan Outside s')%list
            end
        end
  end.

(** The indices of the positional placeholders ([$1], [$2], ...) of a
    text, in the order they occur. *)
Definition placeholders (text : string) : list nat := scan Outside text.



(** The position of the first occurrence of [needle] in [hay]. *)
Fixpoint find (needle hay : string) : option nat :=
  if prefix needle hay then Some 0
  else
    match hay with
    | EmptyString => None
    | String _ hay' => option_map S (find needle hay')
    end.

Definition contains (needle hay : string) : bool :=
  match find needle hay with
  | Some _ => true
  | None => false
  end.

(** The first occurrence of [a] lies before the first occurrence of [b]. *)
Definition occurs_before (a b text : string) : bool :=
  match find a text, find b text with
  | Some i, Some j => Nat.ltb i j
  | _, _ => false
  end.

(** [needle] occurs in [hay], letter case included. *)
Definition substring_of (needle hay : string) : Prop :=
  exists before after : string, hay = before ++ needle ++ after.

(** PostgreSQL's [LIKE]: [%] stands for any run of characters, [_] for
    any one character, a backslash makes the next character of the pattern
    stand for itself (a pattern may not end in one), and every other
    character stands for itself, upper and lower case being different
    characters. *)
Fixpoint like (pattern subject : string) : bool :=
  match pattern with
  | EmptyString =>
      match subject with
      | EmptyString => true
      | String _ _ => false
      end
  | String "%" p =>
      (fix any_run (s : string) : bool :=
         like p s ||
         match s with
         | EmptyString => false
         | String _ s' => any_run s'
         end) subject
  | String "_" p =>
      match subject with
      | EmptyString => false
      | String _ s => like p s
      end
  | String "\" EmptyString => false
  | String "\" (String c p) =>
      match subject with
      | EmptyString => false
      | String d s => Ascii.eqb c d && like p s
      end
  | String c p =>
      match subject with
      | EmptyString => false
      | String d s => Ascii.eqb c d && like p s
      end
  end.

(** A text none of whose characters [LIKE] reads specially. *)
Fixpoint like_literal (s : string) : bool :=
  match s with
  | EmptyString => true
  | String c s' =>
      negb (Ascii.eqb c "%") && negb (Ascii.eqb c "_") &&
      negb (Ascii.eqb c "\") && like_literal s'
  end.

(** Letter case, for texts compared without regard to it. *)
Definition lower (c : ascii) : ascii :=
  let n := nat_of_ascii c in
  if Nat.leb 65 n && Nat.leb n 90 then ascii_of_nat (n + 32) else c.

Fixpoint lowercase (s : string) : string :=
  match s with
  | EmptyString => EmptyString
  | String c s' => String (lower c) (lowercase s')
  end.

End Sql.

Import Sql.

(** ** The builder as the specification words it *)

(** The filter fields that contribute a [WHERE] predicate, in the fixed
    order the specification gives. *)
Inductive filter_field : Type :=
| City
| OwnerId
| MinimumPrice
| MaximumPrice.

Definition where_fields : list filter_field :=
  [City; OwnerId; MinimumPrice; MaximumPrice].

Definition field_key (f : filter_field) : string :=
  match f with
  | City => "city"
  | OwnerId => "owner_id"
  | MinimumPrice => "minimum_price_per_night"
  | MaximumPrice => "maximum_price_per_night"
  end.

(** The keys of all the filter fields of an options object. *)
Definition filter_keys : list string :=
  (map field_key where_fields ++ ["minimum_rating"])%list.

(** The predicate of a field whose argument is placeholder [n]. *)
Definition predicate_text (f : filter_field) (n : nat) : string :=
  match f with
  | City => "city LIKE $" ++ string_of_nat n ++ " "
  | OwnerId => "owner_id = $" ++ string_of_nat n ++ " "
  | MinimumPrice => "(cost_per_night) >= $" ++ string_of_nat n ++ " "
  | MaximumPrice => "(cost_per_night) <= $" ++ string_of_nat n ++ " "
  end.

(** The argument bound for a field that holds [v]. *)
Definition predicate_argument (f : filter_field) (v : value) : value :=
  match f with
  | City => VStr ("%" ++ to_string v ++ "%")
  | OwnerId => v
  | MinimumPrice => mul v (VNum 100)
  | MaximumPrice => mul v (VNum 100)
  end.

(** A field is present when the source's test [if (options.f)] passes. *)
Definition present (options : object) (k : string) : bool :=
  truthy (get options k).

Definition present_fields (options : object) : list filter_field :=
  filter (fun f => present options (field_key f)) where_fields.

(** Which of the five filter fields are present. *)
Definition presence (options : object) : list bool :=
  map (present options) filter_keys.

(** The predicates of the fields [fs], numbered from [n] on. *)
Fixpoint numbered_predicates (n : nat) (fs : list filter_field) : list string :=
  match fs with
  | [] => []
  | f :: fs' => predicate_text f n :: numbered_predicates (S n) fs'
  end.

Definition base_clause : string :=
  "SELECT properties.*, AVG(rating) AS average_rating" ++ nl ++
  "  FROM properties" ++ nl ++
  "  LEFT JOIN property_reviews ON properties.id = property_id ".

Definition where_arguments (options : object) : list value :=
  map (fun f => predicate_argument f (get options (field_key f)))
      (present_fields options).

Definition where_clause (options : object) : string :=
  match numbered_predicates 1 (present_fields options) with
  | [] => ""
  | predicates => "WHERE " ++ join "AND " predicates
  end.

Definition having_arguments (options : object) : list value :=
  if present options "minimum_rating" then [get options "minimum_rating"] else [].

Definition having_clause (options : object) : string :=
  if present options "minimum_rating"
  then "HAVING AVG(rating) > $" ++
       string_of_nat (S (List.length (where_arguments options))) ++ " "
  else "".

(** [BuildPropertySearch] as the specification describes it: the base
    clause, one predicate and one argument per present field in the fixed
    order, [GROUP BY], the optional [HAVING], [ORDER BY] and [LIMIT]. *)
Definition BuildPropertySearch (options : object) (limit : value) : query :=
  let args :=
    (where_arguments options ++ having_arguments options ++
     [default_to (VNum 10) limit])%list in
  (base_clause ++ where_clause options ++ "GROUP BY properties.id " ++
   having_clause options ++
   "ORDER BY cost_per_night" ++ nl ++
   "  LIMIT $" ++ string_of_nat (List.length args) ++ ";",
   args).

(** What every function of the module does with the outcome of its one
    query: the query goes to the pool; when the database fails it, the
    message of the error is written to the console and the promise
    resolves with [undefined]; otherwise the promise resolves and the
    console is left alone.  In neither case does the promise reject. *)
Definition handles_failure_inside (db : database) (call : M (promise returned))
  : Prop :=
  forall w : world,
  exists (text : string) (params : list value),
    sent (snd (call w)) = push (sent w) (text, params) /\
    match db text params with
    | Rejected e =>
        fst (call w) = Fulfilled RUndefined /\
        console (snd (call w)) = push (console w) (message e)
    | Fulfilled _ =>
        (exists r, fst (call w) = Fulfilled r) /\
        console (snd (call w)) = console w
    end.

(** The placeholder of argument [n]. *)
Definition placeholder (n : nat) : string := "$" ++ string_of_nat n.

(** The text [valueIndex] gains from [count] rounds of the loop of
    [addProperty] that start at placeholder [from]. *)
Fixpoint value_index (from count : nat) : string :=
  match count with
  | 0 => ""
  | S count' => placeholder from ++ ", " ++ value_index (S from) count'
  end.

(** [BuildInsert] into the properties table as the specification
    describes it: the columns are the record's keys in their own order,
    column [i] goes with placeholder [$i] and with argument [i]. *)
Definition BuildInsert (property : object) : query :=
  ("INSERT INTO properties (" ++ join ", " (keys property) ++ ") " ++ nl ++
   "  VALUES (" ++
   join ", " (map placeholder (seq 1 (List.length property))) ++ ")" ++ nl ++
   "  RETURNING *;",
   map snd property).

(** A query whose text carries the placeholders [$1], ..., [$N] in this
    order, [N] being the number of its arguments, each of them once. *)
Definition numbered_once (q : query) : Prop :=
  placeholders (fst q) = seq 1 (List.length (snd q)) /\
  forall i : nat,
    1 <= i <= List.length (snd q) ->
    count_occ Nat.eq_dec (placeholders (fst q)) i = 1.

(** A field of a filter that holds the falsy value of its type: the empty
    string for the city, zero for the owner, the prices and the rating. *)
Definition holds_falsy (options : object) (k : string) : Prop :=
  (k = "city" /\ get options k = VStr "") \/
  (In k ["owner_id"; "minimum_price_per_night"; "maximum_price_per_night";
         "minimum_rating"] /\
   get options k = VNum 0).

(** ** Sample inputs *)

Definition cabin : object :=
  [("name", VStr "Cabin"); ("cost_per_night", VNum 5000)].

Definition vancouver_filter : object :=
  [("city", VStr "Vancouver"); ("owner_id", VNum 7); ("minimum_rating", VNum 4)].

Definition hostile_filter : object :=
  [("city", VStr "x' OR 1=1; --"); ("owner_id", VStr "0; DROP TABLE users");
   ("minimum_rating", VStr "$9")].


Definition connection_lost : js_error :=
  {| name := "Error"; message := "Connection terminated unexpectedly" |}.

(** ** What a call resolves with *)

(** A call sends one query and resolves with [shape] of the answer, or
    with [undefined] when the database fails the query. *)
Definition resolves_with (shape : pg_result -> returned) (db : database)
    (call : M (promise returned)) : Prop :=
  forall w : world,
  exists (text : string) (params : list value),
    sent (snd (call w)) = push (sent w) (text, params) /\
    fst (call w) =
    match db text params with
    | Fulfilled res => Fulfilled (shape res)
    | Rejected _ => Fulfilled RUndefined
    end.

(** [res.rows]. *)
Definition all_rows (res : pg_result) : returned := RRows (rows res).

(** [result.rows[0]]. *)
Definition first_row_of (res : pg_result) : returned := first_row (rows res).

(** The number of filter fields that are present. *)
Definition present_count (options : object) : nat :=
  List.length (filter (fun b : bool => b) (presence options)).


(** * Properties *)

(** ** Strings and arrays *)

Section Strings.

Lemma append_assoc (a b c : string) : (a ++ b) ++ c = a ++ (b ++ c).
Proof.
  induction a as [|x a IH]; simpl; [reflexivity | now rewrite IH].
Qed.

Lemma append_empty_r (s : string) : s ++ "" = s.
Proof.
  induction s as [|x s IH]; simpl; [reflexivity | now rewrite IH].
Qed.

Lemma length_append (a b : string) :
  String.length (a ++ b) = String.length a + String.length b.
Proof.
  induction a as [|x a IH]; simpl; [reflexivity | now rewrite IH].
Qed.

Lemma substring_whole_prefix (s t : string) :
  substring 0 (String.length s) (s ++ t) = s.
Proof.
  induction s as [|x s IH]; simpl.
  - now destruct t.
  - now rewrite IH.
Qed.

(** Dropping the last two characters undoes appending a separator of two
    characters. *)
Lemma slice_0_neg_separator (s : string) (a b : ascii) :
  slice_0_neg 2 (s ++ String a (String b "")) = s.
Proof.
  unfold slice_0_neg.
  rewrite length_append; simpl String.length.
  replace (String.length s + 2 - 2) with (String.length s) by lia.
  apply substring_whole_prefix.
Qed.

Lemma push_length {A : Type} (arr : list A) (x : A) :
  List.length (push arr x) = S (List.length arr).
Proof.
  unfold push. rewrite length_app. simpl. lia.
Qed.

End Strings.

(** ** The search query: the source against the specification's wording *)

(** Splits a statement about [getAllProperties_query] into the cases of
    the five tests of the source, each of which then computes. *)
Ltac by_presence options :=
  destruct (truthy (get options "city"));
  destruct (truthy (get options "owner_id"));
  destruct (truthy (get options "minimum_price_per_night"));
  destruct (truthy (get options "maximum_price_per_night"));
  destruct (truthy (get options "minimum_rating")).

Lemma getAllProperties_query_spec (options : object) (limit : value) :
  getAllProperties_query options limit = BuildPropertySearch options limit.
Proof.
  unfold getAllProperties_query, BuildPropertySearch, where_clause,
    having_clause, having_arguments, where_arguments, present_fields, present.
  simpl filter.
  by_presence options; reflexivity.
Qed.

(** ** The insert query: the loop and the text it builds *)

Section InsertLoop.

Variable property : object.

(** The invariant of the loop: the parameters grow by the values of the
    keys, the text by one numbered placeholder and a separator per key. *)
Lemma addProperty_loop_spec (ks : list string) :
  forall (queryParams : list value) (valueIndex : string),
    addProperty_loop property ks queryParams valueIndex =
    ((queryParams ++ map (get property) ks)%list,
     valueIndex ++ value_index (S (List.length queryParams)) (List.length ks)).
Proof.
  induction ks as [|key ks IH]; intros queryParams valueIndex; simpl.
  - now rewrite List.app_nil_r, append_empty_r.
  - rewrite IH, push_length. unfold push, placeholder.
    rewrite <- List.app_assoc. simpl.
    f_equal. rewrite !append_assoc. f_equal.
    cbn [append]. f_equal. now rewrite append_assoc.
Qed.

End InsertLoop.

Lemma value_index_separator (count from : nat) :
  value_index from (S count) =
  join ", " (map placeholder (seq from (S count))) ++ ", ".
Proof.
  revert from. induction count as [|count IH]; intros from.
  - reflexivity.
  - change (value_index from (S (S count)))
      with (placeholder from ++ ", " ++ value_index (S from) (S count)).
    rewrite IH.
    change (seq from (S (S count))) with (from :: seq (S from) (S count)).
    change (join ", " (map placeholder (from :: seq (S from) (S count))))
      with (placeholder from ++ ", " ++
            join ", " (map placeholder (seq (S from) (S count)))).
    now rewrite !append_assoc.
Qed.

(** [valueIndex.slice(0, -2)] is the list of placeholders joined by
    [", "], also when the record has no key. *)
Lemma value_index_slice (count from : nat) :
  slice_0_neg 2 (value_index from count) =
  join ", " (map placeholder (seq from count)).
Proof.
  destruct count as [|count].
  - reflexivity.
  - rewrite value_index_separator. apply slice_0_neg_separator.
Qed.

Lemma addProperty_query_text (property : object) :
  fst (addProperty_query property) = fst (BuildInsert property).
Proof.
  unfold addProperty_query, BuildInsert.
  rewrite addProperty_loop_spec. simpl fst.
  unfold keys at 2. rewrite length_map.
  change (List.length (@nil value)) with 0.
  change ("" ++ value_index 1 (List.length property))
    with (value_index 1 (List.length property)).
  rewrite value_index_slice, !append_assoc. reflexivity.
Qed.

Lemma addProperty_query_args (property : object) :
  snd (addProperty_query property) = map (get property) (keys property).
Proof.
  unfold addProperty_query. now rewrite addProperty_loop_spec.
Qed.

(** Reading back the keys of an object gives its values in order, the
    keys of an object being distinct. *)
Lemma get_keys (property : object) :
  NoDup (keys property) ->
  map (get property) (keys property) = map snd property.
Proof.
  induction property as [|[k v] property IH]; intros Hnd; simpl.
  - reflexivity.
  - inversion Hnd as [|? ? Hnotin Hnd']; subst.
    rewrite String.eqb_refl. f_equal.
    rewrite <- IH by assumption.
    apply map_ext_in. intros k' Hin.
    destruct (String.eqb_spec k k') as [->|_]; [contradiction | reflexivity].
Qed.

Lemma addProperty_query_spec (property : object) :
  NoDup (keys property) ->
  addProperty_query property = BuildInsert property.
Proof.
  intros Hnd.
  rewrite (surjective_pairing (addProperty_query property)).
  rewrite addProperty_query_text, addProperty_query_args, get_keys by assumption.
  reflexivity.
Qed.

(** ** Reading the placeholders back from a text *)

Section Placeholders.












Lemma count_occ_seq (from count i : nat) :
  count_occ Nat.eq_dec (seq from count) i =
  if Nat.leb from i && Nat.ltb i (from + count) then 1 else 0.
Proof.
  revert from. induction count as [|count IH]; intros from; simpl.
  - destruct (Nat.leb_spec from i), (Nat.ltb_spec i (from + 0)); simpl; lia.
  - rewrite IH.
    destruct (Nat.eq_dec from i), (Nat.leb_spec (S from) i),
      (Nat.ltb_spec i (S from + count)), (Nat.leb_spec from i),
      (Nat.ltb_spec i (from + S count)); simpl; lia.
Qed.



End Placeholders.

(** ** The meaning of [LIKE] *)

Section Like.

Lemma like_percent_step (p s : string) :
  like (String "%" p) s =
  like p s ||
  match s with
  | EmptyString => false
  | String _ s' => like (String "%" p) s'
  end.
Proof.
  destruct s; reflexivity.
Qed.

Lemma like_percent_iff (p s : string) :
  like (String "%" p) s = true <->
  exists before after : string, s = before ++ after /\ like p after = true.
Proof.
  induction s as [|c s IH]; rewrite like_percent_step.
  - rewrite orb_false_r. split.
    + intros H. now exists "", "".
    + intros (before & after & Heq & H).
      destruct before; [|discriminate]. simpl in Heq. now subst.
  - rewrite orb_true_iff, IH. split.
    + intros [H | (before & after & Heq & H)].
      * now exists "", (String c s).
      * exists (String c before), after. simpl. now subst.
    + intros (before & after & Heq & H).
      destruct before as [|c' before]; simpl in Heq.
      * left. now subst.
      * right. injection Heq as _ Heq. now exists before, after.
Qed.

Lemma like_percent_everything (s : string) : like "%" s = true.
Proof.
  induction s as [|c s IH]; rewrite like_percent_step; [reflexivity|].
  rewrite IH. apply orb_true_r.
Qed.

(** A character [LIKE] does not read specially stands for itself. *)
Lemma like_ordinary (c : ascii) (p s : string) :
  like_literal (String c "") = true ->
  like (String c p) s =
  match s with
  | EmptyString => false
  | String d s' => Ascii.eqb c d && like p s'
  end.
Proof.
  intros H.
  destruct c as [[] [] [] [] [] [] [] []];
    try discriminate H; destruct s; reflexivity.
Qed.

Lemma like_literal_prefix (city p s : string) :
  like_literal city = true ->
  like (city ++ p) s = true <->
  exists after : string, s = city ++ after /\ like p after = true.
Proof.
  intros Hlit. revert s.
  induction city as [|c city IH]; intros s.
  - simpl. split; [intros H; now exists s | now intros (after & -> & H)].
  - assert (Hc : like_literal (String c "") = true /\ like_literal city = true).
    { simpl in Hlit. simpl. rewrite andb_true_r.
      now apply andb_prop in Hlit. }
    destruct Hc as [Hc Hcity].
    change (String c city ++ p) with (String c (city ++ p)).
    rewrite like_ordinary by exact Hc.
    destruct s as [|d s].
    + split; [discriminate | intros (after & Heq & _); discriminate].
    + rewrite andb_true_iff, (IH Hcity). split.
      * intros [Hcd (after & -> & H)].
        apply Ascii.eqb_eq in Hcd. subst. now exists after.
      * intros (after & Heq & H). simpl in Heq. injection Heq as -> ->.
        split; [apply Ascii.eqb_refl | now exists after].
Qed.

(** A city free of special characters, wrapped in [%], is matched by the
    texts that contain it, letter case included. *)
Lemma like_wrapped_literal (city s : string) :
  like_literal city = true ->
  like ("%" ++ city ++ "%") s = true <-> substring_of city s.
Proof.
  intros Hlit.
  change ("%" ++ city ++ "%") with (String "%" (city ++ "%")).
  rewrite like_percent_iff. unfold substring_of. split.
  - intros (before & after & -> & H).
    apply (like_literal_prefix city "%" after Hlit) in H.
    destruct H as (after' & -> & _). now exists before, after'.
  - intros (before & after & ->).
    exists before, (city ++ after). split; [reflexivity|].
    apply (like_literal_prefix city "%" _ Hlit).
    exists after. split; [reflexivity | apply like_percent_everything].
Qed.

End Like.

(** ** Objects *)

Lemma get_remove (o : object) (k k' : string) :
  get (remove k o) k' = if String.eqb k k' then VUndefined else get o k'.
Proof.
  induction o as [|[k0 v] o IH]; simpl.
  - now destruct (String.eqb k k').
  - destruct (String.eqb_spec k0 k) as [->|Hne]; simpl.
    + rewrite IH. now destruct (String.eqb k k').
    + rewrite IH.
      destruct (String.eqb_spec k0 k') as [->|_]; [|reflexivity].
      destruct (String.eqb_spec k k') as [->|_]; [contradiction | reflexivity].
Qed.

(** A filter field whose test fails contributes nothing: the query is
    the one of the filter without the field. *)
Lemma getAllProperties_query_remove (options : object) (limit : value) (k : string) :
  In k filter_keys ->
  truthy (get options k) = false ->
  getAllProperties_query (remove k options) limit =
  getAllProperties_query options limit.
Proof.
  intros Hin Hfalsy. unfold getAllProperties_query.
  rewrite !get_remove.
  simpl in Hin.
  destruct Hin as [<-|[<-|[<-|[<-|[<-|[]]]]]];
    simpl String.eqb; cbv iota; rewrite Hfalsy; reflexivity.
Qed.

(** The text of the insert query depends on the keys of the record
    only, not on its values. *)
Lemma addProperty_text_depends_on_keys (property1 property2 : object) :
  keys property1 = keys property2 ->
  fst (addProperty_query property1) = fst (addProperty_query property2).
Proof.
  intros Hkeys. rewrite !addProperty_query_text. unfold BuildInsert.
  cbn [fst]. rewrite Hkeys.
  replace (List.length property1) with (List.length property2); [reflexivity|].
  unfold keys in Hkeys.
  now rewrite <- (length_map fst property2), <- Hkeys, length_map.
Qed.

(** ** The claims *)

(** C1. The SQL text of the search query depends only on which filter
    fields are present (pass the test of the source), neither on the
    values they hold nor on the limit: every value of the caller reaches
    the database as a bound argument, in the parameter sequence, and never
    as part of the text. *)
Theorem getAllProperties_values_only_bound
  (options1 options2 : object) (limit1 limit2 : value) :
  presence options1 = presence options2 ->
  fst (getAllProperties_query options1 limit1) =
  fst (getAllProperties_query options2 limit2) /\
  snd (getAllProperties_query options1 limit1) =
  (where_arguments options1 ++ having_arguments options1 ++
   [default_to (VNum 10) limit1])%list.
Proof.
  intros H. unfold presence, filter_keys, present in H. simpl in H.
  injection H as H1 H2 H3 H4 H5.
  split.
  - unfold getAllProperties_query. rewrite H1, H2, H3, H4, H5.
    by_presence options2; reflexivity.
  - now rewrite getAllProperties_query_spec.
Qed.

Lemma getAllProperties_values_only_bound_witness :
  presence vancouver_filter = presence hostile_filter /\
  fst (getAllProperties_query vancouver_filter (VNum 5)) =
  fst (getAllProperties_query hostile_filter (VStr "1; DELETE FROM users")).
Proof.
  split; [reflexivity|].
  apply (getAllProperties_values_only_bound
           vancouver_filter hostile_filter
           (VNum 5) (VStr "1; DELETE FROM users")).
  reflexivity.
Defined.




(** C3. The search query is the one the specification words: one
    predicate and one argument per present field, in the order city,
    owner, minimum price, maximum price, the predicates numbered in that
    order and joined with [AND]; the text contains a [WHERE] exactly when
    a predicate is present; and when no filter field is present the only
    argument is the limit. *)
Theorem getAllProperties_predicates (options : object) (limit : value) :
  getAllProperties_query options limit = BuildPropertySearch options limit /\
  List.length (where_arguments options) =
  List.length (numbered_predicates 1 (present_fields options)) /\
  contains "WHERE" (fst (getAllProperties_query options limit)) =
  negb (Nat.eqb (List.length (present_fields options)) 0) /\
  (presence options = [false; false; false; false; false] ->
   contains "WHERE" (fst (getAllProperties_query options limit)) = false /\
   snd (getAllProperties_query options limit) = [default_to (VNum 10) limit]).
Proof.
  split; [apply getAllProperties_query_spec|].
  split; [|split].
  - unfold where_arguments, present_fields, present. simpl filter.
    by_presence options; reflexivity.
  - unfold getAllProperties_query, present_fields, present. simpl filter.
    by_presence options; reflexivity.
  - intros H. unfold presence, filter_keys, present in H. simpl in H.
    injection H as H1 H2 H3 H4 H5.
    unfold getAllProperties_query. rewrite H1, H2, H3, H4, H5.
    split; reflexivity.
Qed.

Lemma getAllProperties_predicates_witness :
  contains "WHERE" (fst (getAllProperties_query [] (VNum 3))) = false /\
  snd (getAllProperties_query [] (VNum 3)) = [VNum 3].
Proof.
  apply (getAllProperties_predicates [] (VNum 3)).
  reflexivity.
Defined.

(** C4, as stated, fails: the predicate is a [LIKE], which tells upper
    from lower case, so a city that differs from the stored one in letter
    case only is not matched. *)
Lemma city_match_tells_letter_case :
  ~ (forall (city subject pattern : string),
       nth_error
         (snd (getAllProperties_query [("city", VStr city)] VUndefined)) 0 =
       Some (VStr pattern) ->
       contains (lowercase city) (lowercase subject) = true ->
       like pattern subject = true).
Proof.
  intros H.
  specialize (H "van" "Vancouver" "%van%" eq_refl eq_refl).
  vm_compute in H. discriminate H.
Qed.

(** C4, amended. For every filter whose city is a non-empty string, the
    first predicate is [city LIKE $1] and its argument is the city wrapped
    in [%] on both sides; when the city contains none of the characters
    [LIKE] reads specially, the comparison holds for exactly the texts
    that contain the city, letter case included. *)
Theorem getAllProperties_city_predicate
  (options : object) (limit : value) (city : string) :
  get options "city" = VStr city ->
  city <> "" ->
  nth_error (snd (getAllProperties_query options limit)) 0 =
  Some (VStr ("%" ++ city ++ "%")) /\
  prefix (base_clause ++ "WHERE city LIKE $1 ")
         (fst (getAllProperties_query options limit)) = true /\
  (like_literal city = true ->
   forall subject : string,
     like ("%" ++ city ++ "%") subject = true <-> substring_of city subject).
Proof.
  intros Hcity Hne.
  assert (Ht : truthy (VStr city) = true).
  { simpl. apply negb_true_iff, String.eqb_neq. exact Hne. }
  split; [|split].
  - unfold getAllProperties_query. rewrite Hcity, Ht.
    by_presence options; reflexivity.
  - unfold getAllProperties_query. rewrite Hcity, Ht.
    by_presence options; reflexivity.
  - intros Hlit subject. now apply like_wrapped_literal.
Qed.

Lemma getAllProperties_city_predicate_witness :
  nth_error (snd (getAllProperties_query vancouver_filter VUndefined)) 0 =
  Some (VStr "%Vancouver%") /\
  (like "%Vancouver%" "North Vancouver" = true <->
   substring_of "Vancouver" "North Vancouver").
Proof.
  destruct (getAllProperties_city_predicate
              vancouver_filter VUndefined "Vancouver" eq_refl)
    as (Harg & _ & Hlike).
  - discriminate.
  - split; [exact Harg | exact (Hlike eq_refl "North Vancouver")].
Defined.

(** C5. For every filter whose minimum rating is present, the text is the
    base clause and the [WHERE] clause (if any), then [GROUP BY], then
    [HAVING AVG(rating) > $k], then [ORDER BY] and [LIMIT $(k+1)], where
    argument [k] is the rating, the last one before the limit. *)
Theorem getAllProperties_having (options : object) (limit : value) :
  present options "minimum_rating" = true ->
  let k := S (List.length (where_arguments options)) in
  fst (getAllProperties_query options limit) =
  base_clause ++ where_clause options ++
  "GROUP BY properties.id " ++
  "HAVING AVG(rating) > $" ++ string_of_nat k ++ " " ++
  "ORDER BY cost_per_night" ++ nl ++
  "  LIMIT $" ++ string_of_nat (S k) ++ ";" /\
  snd (getAllProperties_query options limit) =
  (where_arguments options ++
   [get options "minimum_rating"; default_to (VNum 10) limit])%list /\
  occurs_before "GROUP BY" "HAVING" (fst (getAllProperties_query options limit))
  = true.
Proof.
  intros Hrating. unfold present in Hrating. cbv zeta.
  unfold getAllProperties_query, where_clause, where_arguments,
    present_fields, present.
  simpl filter. rewrite Hrating.
  by_presence options; repeat split; reflexivity.
Qed.

Lemma getAllProperties_having_witness :
  snd (getAllProperties_query vancouver_filter VUndefined) =
  [VStr "%Vancouver%"; VNum 7; VNum 4; VNum 10] /\
  occurs_before "GROUP BY" "HAVING"
    (fst (getAllProperties_query vancouver_filter VUndefined)) = true.
Proof.
  destruct (getAllProperties_having vancouver_filter VUndefined eq_refl)
    as (_ & Hargs & Hpos).
  split; [exact Hargs | exact Hpos].
Defined.



(** C7. For every record (of distinct keys, as those of an object are),
    the insert query is [INSERT INTO properties (<columns>) VALUES
    (<placeholders>) RETURNING *;] where the columns are the keys in the
    record's own order, and column [i], placeholder [$i] and argument [i]
    go together; the record of a name and a cost per night gives the
    insert of two columns with the two values as arguments. *)
Theorem addProperty_columns_in_key_order :
  (forall property : object,
     NoDup (keys property) ->
     addProperty_query property = BuildInsert property /\
     forall (i : nat) (k : string) (v : value),
       nth_error property i = Some (k, v) ->
       nth_error (keys property) i = Some k /\
       nth_error (map placeholder (seq 1 (List.length property))) i =
       Some ("$" ++ string_of_nat (S i)) /\
       nth_error (snd (addProperty_query property)) i = Some v) /\
  addProperty_query cabin =
  ("INSERT INTO properties (name, cost_per_night) " ++ nl ++
   "  VALUES ($1, $2)" ++ nl ++
   "  RETURNING *;",
   [VStr "Cabin"; VNum 5000]).
Proof.
  split; [|reflexivity].
  intros property Hnd.
  split; [now apply addProperty_query_spec|].
  intros i k v Hi.
  rewrite addProperty_query_spec by assumption.
  unfold BuildInsert, keys. cbn [snd].
  rewrite !nth_error_map, Hi. cbn [option_map fst snd].
  repeat split.
  assert (Hlt : i < List.length property).
  { apply nth_error_Some. rewrite Hi. discriminate. }
  rewrite (nth_error_nth' _ 0) by (now rewrite length_seq).
  now rewrite seq_nth.
Qed.

Lemma addProperty_columns_in_key_order_witness :
  addProperty_query cabin = BuildInsert cabin /\
  nth_error (snd (addProperty_query cabin)) 1 = Some (VNum 5000).
Proof.
  destruct (proj1 addProperty_columns_in_key_order cabin) as [Hq Hi].
  - repeat constructor; simpl; intuition discriminate.
  - split; [exact Hq|].
    exact (proj2 (proj2 (Hi 1 "cost_per_night" (VNum 5000) eq_refl))).
Defined.

(** C8, as stated, fails: the source has no check of the record, and a
    record without keys is turned into a query like any other and sent. *)
Lemma addProperty_empty_record_is_sent :
  ~ (forall db : database,
       exists e : js_error,
         fst (run (addProperty db [])) = Rejected e /\
         name e = "ValidationError" /\
         sent (snd (run (addProperty db []))) = []).
Proof.
  intros H. destruct (H (answering [])) as (e & Hrejected & _).
  discriminate Hrejected.
Qed.

(** C8, amended. A record with zero keys does not make [addProperty]
    fail: the query with an empty column list, an empty value list and no
    argument is sent to the pool, and the promise does not reject. *)
Theorem addProperty_empty_record (db : database) (w : world) :
  addProperty_query [] =
  ("INSERT INTO properties () " ++ nl ++
   "  VALUES ()" ++ nl ++
   "  RETURNING *;",
   []) /\
  sent (snd (addProperty db [] w)) =
  push (sent w) (addProperty_query []) /\
  forall e : js_error, fst (addProperty db [] w) <> Rejected e.
Proof.
  split; [reflexivity|].
  unfold addProperty, bind, pool_query. cbn.
  destruct (db _ _); cbn; split; (reflexivity || discriminate).
Qed.

(** The shape all six functions share: one query, then [.then] and the
    [.catch] that logs the message. *)
Lemma query_then_catch_handles_failure
  (db : database) (text : string) (params : list value)
  (f : pg_result -> returned) :
  handles_failure_inside db
    (p <- pool_query db text params ;;
     catch (and_then p f) (fun err => console_log (message err))).
Proof.
  intros w. exists text, params.
  unfold bind, pool_query. cbn.
  destruct (db text params) as [res|e]; cbn.
  - split; [reflexivity|]. split; [now exists (f res) | reflexivity].
  - split; [reflexivity|]. split; reflexivity.
Qed.

(** C9, as stated, fails: a failure of the database is caught inside the
    function, its message is written to the console, and the caller gets
    a promise that resolves with [undefined]. *)
Lemma getAllProperties_swallows_failure :
  ~ (forall (db : database) (options : object) (limit : value) (e : js_error),
       db (fst (getAllProperties_query options limit))
          (snd (getAllProperties_query options limit)) = Rejected e ->
       fst (run (getAllProperties db options limit)) = Rejected e /\
       console (snd (run (getAllProperties db options limit))) = []).
Proof.
  intros H.
  destruct (H (failing connection_lost) [] VUndefined connection_lost eq_refl)
    as [Hrejected _].
  discriminate Hrejected.
Qed.

(** C9, amended. Every function of the module handles a failure of the
    database inside itself: it sends its one query, and when the database
    fails it the message of the error is logged to the console and the
    promise resolves with [undefined]; the promise of no function ever
    rejects. *)
Theorem database_failures_handled_inside (db : database) :
  (forall email, handles_failure_inside db (getUserWithEmail db email)) /\
  (forall id, handles_failure_inside db (getUserWithId db id)) /\
  (forall user, handles_failure_inside db (addUser db user)) /\
  (forall guest_id limit,
     handles_failure_inside db (getAllReservations db guest_id limit)) /\
  (forall options limit,
     handles_failure_inside db (getAllProperties db options limit)) /\
  (forall property, handles_failure_inside db (addProperty db property)).
Proof.
  repeat split; intros.
  - apply query_then_catch_handles_failure.
  - apply query_then_catch_handles_failure.
  - apply query_then_catch_handles_failure.
  - apply query_then_catch_handles_failure.
  - unfold getAllProperties.
    destruct (getAllProperties_query options limit).
    apply query_then_catch_handles_failure.
  - unfold addProperty.
    destruct (addProperty_query property).
    apply query_then_catch_handles_failure.
Qed.

(** C10. A filter field that holds the falsy value of its type (the empty
    string for the city; zero for the owner, a price or the rating) is
    treated as absent: the test of the source fails for it, and the query
    and the whole call are those of the filter without the field. *)
Theorem getAllProperties_falsy_as_absent
  (options : object) (limit : value) (k : string) :
  holds_falsy options k ->
  present options k = false /\
  getAllProperties_query (remove k options) limit =
  getAllProperties_query options limit /\
  forall db : database,
    getAllProperties db (remove k options) limit =
    getAllProperties db options limit.
Proof.
  intros H.
  assert (Hin : In k filter_keys /\ truthy (get options k) = false).
  { destruct H as [[-> Hv] | [Hin Hv]]; rewrite Hv.
    - split; [now left | reflexivity].
    - split; [now right | reflexivity]. }
  destruct Hin as [Hin Hfalsy].
  split; [exact Hfalsy|].
  split; [now apply getAllProperties_query_remove|].
  intros db. unfold getAllProperties.
  now rewrite getAllProperties_query_remove.
Qed.

Lemma getAllProperties_falsy_as_absent_witness :
  getAllProperties_query
    (remove "city" [("city", VStr ""); ("owner_id", VNum 7)]) VUndefined =
  getAllProperties_query [("city", VStr ""); ("owner_id", VNum 7)] VUndefined.
Proof.
  refine (proj1 (proj2 (getAllProperties_falsy_as_absent
                          [("city", VStr ""); ("owner_id", VNum 7)]
                          VUndefined "city" _))).
  left. split; reflexivity.
Defined.

(** * Further properties of the module *)

(** ** What the calls send and resolve with *)

Section Calls.

Variable db : database.

Lemma query_then_catch_sent (text : string) (params : list value)
    (f : pg_result -> returned) (w : world) :
  sent (snd ((p <- pool_query db text params ;;
              catch (and_then p f) (fun err => console_log (message err))) w)) =
  push (sent w) (text, params).
Proof.
  unfold bind, pool_query. cbn.
  destruct (db text params); reflexivity.
Qed.

Lemma query_then_catch_resolves (text : string) (params : list value)
    (f : pg_result -> returned) :
  resolves_with f db
    (p <- pool_query db text params ;;
     catch (and_then p f) (fun err => console_log (message err))).
Proof.
  intros w. exists text, params.
  split; [apply query_then_catch_sent|].
  unfold bind, pool_query. cbn.
  destruct (db text params); reflexivity.
Qed.

End Calls.

Lemma numbered_once_of_seq (q : query) :
  placeholders (fst q) = seq 1 (List.length (snd q)) -> numbered_once q.
Proof.
  intros Hq. split; [exact Hq|]. intros i Hi.
  rewrite Hq, count_occ_seq.
  destruct (Nat.leb_spec 1 i), (Nat.ltb_spec i (1 + List.length (snd q)));
    simpl; lia.
Qed.

(** X1. [getUserWithEmail] and [getUserWithId] send one query and resolve
    with the first row of the answer, the other rows being dropped; with
    [undefined] when the answer has no row or the database failed; and
    never with [null]. *)
Theorem getUser_first_row_or_undefined (db : database) :
  (forall email, resolves_with first_row_of db (getUserWithEmail db email)) /\
  (forall id, resolves_with first_row_of db (getUserWithId db id)) /\
  (forall (r : object) (more : list object),
     first_row_of {| rows := r :: more |} = RRow r) /\
  first_row_of {| rows := [] |} = RUndefined /\
  (forall res, first_row_of res <> RNull).
Proof.
  split; [|split; [|split; [|split]]].
  - intros email. exact (query_then_catch_resolves db _ _ first_row_of).
  - intros id. exact (query_then_catch_resolves db _ _ first_row_of).
  - reflexivity.
  - reflexivity.
  - intros [[|r rs]]; discriminate.
Qed.


(** X3. [addUser], [getAllReservations], [getAllProperties] and
    [addProperty] send one query and resolve with all the rows of the
    answer, an empty list included, and with [undefined] only when the
    database failed: for these four an empty answer and a failure differ. *)
Theorem list_calls_resolve_with_rows (db : database) :
  (forall user, resolves_with all_rows db (addUser db user)) /\
  (forall guest_id limit,
     resolves_with all_rows db (getAllReservations db guest_id limit)) /\
  (forall options limit,
     resolves_with all_rows db (getAllProperties db options limit)) /\
  (forall property, resolves_with all_rows db (addProperty db property)) /\
  (forall res, all_rows res <> RUndefined).
Proof.
  split; [|split; [|split; [|split]]].
  - intros user. exact (query_then_catch_resolves db _ _ all_rows).
  - intros guest_id limit. exact (query_then_catch_resolves db _ _ all_rows).
  - intros options limit. unfold getAllProperties.
    destruct (getAllProperties_query options limit).
    exact (query_then_catch_resolves db _ _ all_rows).
  - intros property. unfold addProperty.
    destruct (addProperty_query property).
    exact (query_then_catch_resolves db _ _ all_rows).
  - discriminate.
Qed.

(** X4. The four functions with a fixed query send a text that does not
    depend on their arguments, with the arguments of the caller as the
    parameters in the order of the placeholders [$1 .. $N], each
    placeholder once; [addUser] binds name, email and password in this
    order, whatever else the user object holds. *)
Theorem fixed_queries_bind_their_arguments :
  exists text1 text2 text3 text4 : string,
  forall (db : database) (w : world),
    (forall email,
       sent (snd (getUserWithEmail db email w)) =
       push (sent w) (text1, [email]) /\
       numbered_once (text1, [email])) /\
    (forall id,
       sent (snd (getUserWithId db id w)) = push (sent w) (text2, [id]) /\
       numbered_once (text2, [id])) /\
    (forall user,
       sent (snd (addUser db user w)) =
       push (sent w)
         (text3, [get user "name"; get user "email"; get user "password"]) /\
       numbered_once
         (text3, [get user "name"; get user "email"; get user "password"])) /\
    (forall guest_id limit,
       sent (snd (getAllReservations db guest_id limit w)) =
       push (sent w) (text4, [guest_id; default_to (VNum 10) limit]) /\
       numbered_once (text4, [guest_id; default_to (VNum 10) limit])).
Proof.
  do 4 eexists. intros db w.
  split; [|split; [|split]]; intros; (split;
    [ apply query_then_catch_sent
    | apply numbered_once_of_seq; reflexivity ]).
Qed.

(** ** Key order, counts and the order of the clauses *)

(** Reading a property does not depend on the order of the keys. *)
Lemma get_Permutation (o1 o2 : object) :
  Permutation o1 o2 ->
  NoDup (keys o1) ->
  forall k : string, get o1 k = get o2 k.
Proof.
  induction 1 as [| [k0 v0] o1 o2 Hperm IH
                  | [k1 v1] [k2 v2] o
                  | o1 o2 o3 H12 IH12 H23 IH23 ]; intros Hnd k.
  - reflexivity.
  - simpl. inversion Hnd; subst. now rewrite IH.
  - simpl. inversion Hnd as [|? ? Hnotin _]; subst.
    destruct (String.eqb_spec k1 k) as [->|_]; [|reflexivity].
    destruct (String.eqb_spec k2 k) as [->|_]; [|reflexivity].
    exfalso. apply Hnotin. now left.
  - rewrite IH12 by assumption. apply IH23.
    unfold keys in *. eapply Permutation_NoDup; [|exact Hnd].
    now apply Permutation_map.
Qed.

(** The search query reads the options through the five filter keys only. *)
Lemma getAllProperties_query_ext (options1 options2 : object) (limit : value) :
  (forall k, In k filter_keys -> get options1 k = get options2 k) ->
  getAllProperties_query options1 limit = getAllProperties_query options2 limit.
Proof.
  intros H. unfold getAllProperties_query.
  rewrite (H "city"), (H "owner_id"), (H "minimum_price_per_night"),
    (H "maximum_price_per_night"), (H "minimum_rating")
    by (simpl; tauto).
  reflexivity.
Qed.

(** X5. The search query and the user insert do not depend on the order
    of the keys of the object they are given: the placeholders follow the
    fixed order of the source, not the order of the fields. *)
Theorem key_order_is_irrelevant
  (o1 o2 : object) (limit : value) (db : database) :
  Permutation o1 o2 ->
  NoDup (keys o1) ->
  getAllProperties_query o1 limit = getAllProperties_query o2 limit /\
  getAllProperties db o1 limit = getAllProperties db o2 limit /\
  addUser db o1 = addUser db o2.
Proof.
  intros Hperm Hnd.
  assert (Hq : getAllProperties_query o1 limit = getAllProperties_query o2 limit).
  { apply getAllProperties_query_ext. intros k _. now apply get_Permutation. }
  split; [exact Hq|]. split.
  - unfold getAllProperties. now rewrite Hq.
  - unfold addUser.
    now rewrite !(get_Permutation o1 o2 Hperm Hnd).
Qed.

Lemma key_order_is_irrelevant_witness :
  getAllProperties_query
    [("minimum_rating", VNum 4); ("city", VStr "Vancouver")] VUndefined =
  getAllProperties_query
    [("city", VStr "Vancouver"); ("minimum_rating", VNum 4)] VUndefined.
Proof.
  refine (proj1 (key_order_is_irrelevant
                   [("minimum_rating", VNum 4); ("city", VStr "Vancouver")]
                   [("city", VStr "Vancouver"); ("minimum_rating", VNum 4)]
                   VUndefined (answering []) _ _)).
  - apply perm_swap.
  - repeat constructor; simpl; intuition discriminate.
Defined.

Lemma getAllProperties_query_last (options : object) (limit : value) :
  last (snd (getAllProperties_query options limit)) VUndefined =
  default_to (VNum 10) limit.
Proof.
  unfold getAllProperties_query.
  by_presence options; reflexivity.
Qed.

(** X6. The search query has one argument per present filter field and
    one for the limit: between one and six, the limit being the last. *)
Theorem getAllProperties_argument_count (options : object) (limit : value) :
  List.length (snd (getAllProperties_query options limit)) =
  S (present_count options) /\
  1 <= List.length (snd (getAllProperties_query options limit)) <= 6 /\
  last (snd (getAllProperties_query options limit)) VUndefined =
  default_to (VNum 10) limit.
Proof.
  unfold getAllProperties_query, present_count, presence, filter_keys, present.
  simpl map.
  by_presence options; simpl; repeat split; lia.
Qed.

(** X7. The clauses of the search query always come in the order SQL asks
    for: [FROM], [WHERE] (if any), [GROUP BY], [HAVING] (if any),
    [ORDER BY], [LIMIT]; and the text has a [HAVING] exactly when the
    minimum rating is present. *)
Theorem getAllProperties_clause_order (options : object) (limit : value) :
  let text := fst (getAllProperties_query options limit) in
  occurs_before "FROM" "GROUP BY" text = true /\
  occurs_before "GROUP BY" "ORDER BY" text = true /\
  occurs_before "ORDER BY" "LIMIT" text = true /\
  contains "HAVING" text = present options "minimum_rating" /\
  (contains "WHERE" text = true ->
   occurs_before "FROM" "WHERE" text = true /\
   occurs_before "WHERE" "GROUP BY" text = true) /\
  (contains "HAVING" text = true ->
   occurs_before "GROUP BY" "HAVING" text = true /\
   occurs_before "HAVING" "ORDER BY" text = true).
Proof.
  cbv zeta. unfold getAllProperties_query, present.
  by_presence options; vm_compute; intuition congruence.
Qed.

Lemma getAllProperties_clause_order_witness :
  occurs_before "WHERE" "GROUP BY"
    (fst (getAllProperties_query vancouver_filter VUndefined)) = true /\
  occurs_before "HAVING" "ORDER BY"
    (fst (getAllProperties_query vancouver_filter VUndefined)) = true.
Proof.
  destruct (getAllProperties_clause_order vancouver_filter VUndefined)
    as (_ & _ & _ & _ & Hwhere & Hhaving).
  split; [exact (proj2 (Hwhere eq_refl)) | exact (proj2 (Hhaving eq_refl))].
Defined.

(** X8. The text of the insert query depends on the keys of the record
    only: two records with the same keys give the same text, whatever
    their values. *)
Theorem addProperty_values_only_bound (property1 property2 : object) :
  keys property1 = keys property2 ->
  fst (addProperty_query property1) = fst (addProperty_query property2) /\
  snd (addProperty_query property1) = map (get property1) (keys property1).
Proof.
  intros Hkeys. split.
  - now apply addProperty_text_depends_on_keys.
  - apply addProperty_query_args.
Qed.

Lemma addProperty_values_only_bound_witness :
  fst (addProperty_query cabin) =
  fst (addProperty_query
         [("name", VStr "x'); DROP TABLE users; --"); ("cost_per_night", VNull)]).
Proof.
  refine (proj1 (addProperty_values_only_bound cabin
                   [("name", VStr "x'); DROP TABLE users; --");
                    ("cost_per_night", VNull)] _)).
  reflexivity.
Defined.

(** X9. A limit other than [undefined] is bound as it is given, also when
    it is [null], zero or no number: the default of ten applies to a
    missing limit only. *)
Theorem limit_is_bound_as_given
  (db : database) (options : object) (guest_id limit : value) (w : world) :
  limit <> VUndefined ->
  last (snd (getAllProperties_query options limit)) VUndefined = limit /\
  exists text : string,
    sent (snd (getAllReservations db guest_id limit w)) =
    push (sent w) (text, [guest_id; limit]).
Proof.
  intros Hlimit.
  assert (Hdefault : default_to (VNum 10) limit = limit).
  { destruct limit; try reflexivity. contradiction. }
  split.
  - rewrite <- Hdefault at 2.
    apply getAllProperties_query_last.
  - eexists. unfold getAllReservations. rewrite Hdefault.
    apply query_then_catch_sent.
Qed.

Lemma limit_is_bound_as_given_witness :
  last (snd (getAllProperties_query vancouver_filter VNull)) VUndefined = VNull.
Proof.
  refine (proj1 (limit_is_bound_as_given (answering []) vancouver_filter
                   (VNum 1) VNull {| console := []; sent := [] |} _)).
  discriminate.
Defined.

(** ** Predicates and their arguments *)

(** X10. Every filter field that is present gets a predicate whose
    placeholder is the position of the field's own argument: the city
    wrapped in [%], the owner as given, a price times 100. *)
Theorem getAllProperties_predicate_alignment
  (options : object) (limit : value) (f : filter_field) :
  present options (field_key f) = true ->
  exists n : nat,
    nth_error (snd (getAllProperties_query options limit)) n =
    Some (predicate_argument f (get options (field_key f))) /\
    contains (predicate_text f (S n))
             (fst (getAllProperties_query options limit)) = true.
Proof.
  unfold present. intros Hf.
  destruct f; simpl field_key in *;
    unfold getAllProperties_query; rewrite Hf;
    by_presence options;
    first [ exists 0; split; reflexivity
          | exists 1; split; reflexivity
          | exists 2; split; reflexivity
          | exists 3; split; reflexivity ].
Qed.

Lemma getAllProperties_predicate_alignment_witness :
  exists n : nat,
    nth_error (snd (getAllProperties_query vancouver_filter VUndefined)) n =
    Some (VNum 7) /\
    contains (predicate_text OwnerId (S n))
             (fst (getAllProperties_query vancouver_filter VUndefined)) = true.
Proof.
  exact (getAllProperties_predicate_alignment
           vancouver_filter VUndefined OwnerId eq_refl).
Defined.

(** ** Column names *)




(** ** The city as a pattern *)

Lemma like_empty_pattern (s : string) : like "" s = true -> s = "".
Proof.
  destruct s; [reflexivity | discriminate].
Qed.

(** Matching is compositional: a pattern that matches a text, followed
    by a pattern that matches another, matches the two texts in a row. *)
Lemma like_append (n : nat) :
  forall p : string,
    String.length p <= n ->
    forall q a b : string,
      like p a = true -> like q b = true -> like (p ++ q) (a ++ b) = true.
Proof.
  induction n as [|n IH]; intros p Hlen q a b Hp Hq.
  - destruct p; [|simpl in Hlen; lia].
    apply like_empty_pattern in Hp. now subst.
  - destruct p as [|c p].
    { apply like_empty_pattern in Hp. now subst. }
    simpl in Hlen.
    destruct (Ascii.eqb_spec c "%") as [->|Hpercent].
    { apply like_percent_iff in Hp. destruct Hp as (a1 & a2 & -> & Hp).
      change (String "%" p ++ q) with (String "%" (p ++ q)).
      apply like_percent_iff. exists a1, (a2 ++ b).
      split; [apply append_assoc | apply IH; [lia | assumption..]]. }
    destruct (Ascii.eqb_spec c "_") as [->|Hunderscore].
    { destruct a as [|d a]; [discriminate|].
      change (like p a = true) in Hp.
      change (like (p ++ q) (a ++ b) = true).
      apply IH; [lia | assumption..]. }
    destruct (Ascii.eqb_spec c "\") as [->|Hbackslash].
    { destruct p as [|c' p]; [discriminate|].
      destruct a as [|d a]; [discriminate|].
      change (Ascii.eqb c' d && like p a = true) in Hp.
      change (Ascii.eqb c' d && like (p ++ q) (a ++ b) = true).
      apply andb_prop in Hp. destruct Hp as [Hc Hp].
      rewrite Hc. simpl in Hlen. apply IH; [lia | assumption..]. }
    assert (Hlit : like_literal (String c "") = true).
    { simpl. apply Ascii.eqb_neq in Hpercent, Hunderscore, Hbackslash.
      now rewrite Hpercent, Hunderscore, Hbackslash. }
    change (String c p ++ q) with (String c (p ++ q)).
    rewrite like_ordinary in Hp |- * by exact Hlit.
    destruct a as [|d a]; [discriminate|].
    change (String d a ++ b) with (String d (a ++ b)).
    apply andb_prop in Hp. destruct Hp as [Hc Hp].
    rewrite Hc. apply IH; [lia | assumption..].
Qed.

(** X12. The city of the caller is read as a pattern, its wildcards not
    escaped: a row is matched as soon as some part of its city matches
    the caller's text as a [LIKE] pattern; a city of [%] matches every
    row. *)
Theorem getAllProperties_city_is_a_pattern
  (options : object) (limit : value) (city part : string) :
  get options "city" = VStr city ->
  city <> "" ->
  like city part = true ->
  nth_error (snd (getAllProperties_query options limit)) 0 =
  Some (VStr ("%" ++ city ++ "%")) /\
  forall before after : string,
    like ("%" ++ city ++ "%") (before ++ part ++ after) = true.
Proof.
  intros Hcity Hne Hpart. split.
  - assert (Ht : truthy (VStr city) = true).
    { simpl. apply negb_true_iff, String.eqb_neq. exact Hne. }
    unfold getAllProperties_query. rewrite Hcity, Ht.
    by_presence options; reflexivity.
  - intros before after.
    change ("%" ++ city ++ "%") with (String "%" (city ++ "%")).
    apply like_percent_iff. exists before, (part ++ after).
    split; [reflexivity|].
    apply (like_append (String.length city)); [lia | exact Hpart|].
    apply like_percent_everything.
Qed.

Lemma getAllProperties_city_is_a_pattern_witness :
  like "%V_n%" ("North " ++ "Van" ++ "couver") = true.
Proof.
  refine (proj2 (getAllProperties_city_is_a_pattern
                   [("city", VStr "V_n")] VUndefined "V_n" "Van"
                   eq_refl _ eq_refl) "North " "couver").
  discriminate.
Defined.

(** ** Prices given as text *)

Section DecimalText.








End DecimalText.


